(** * WrenAI: the dashboard grid component, the AI-service configuration
    fixture and the Compose manifest

  Three artifacts are embedded here:
  - [wren-ui/src/components/pages/home/dashboardGrid/index.tsx], a React
    function component, as a state-passing function over the hook state
    and the console, in a completion monad (normal result or throw);
  - [wren-ai-service/tests/data/config.test.yaml], a stream of YAML
    documents, as a list of YAML values;
  - the Docker Compose manifest, one YAML document, as a YAML value.

  The text of the component is also kept as a syntax tree, with an
  evaluator in which reads, calls and [throw] can throw; the state-passing
  function is shown to do what the text does. *)

From Stdlib Require Import String Ascii List ZArith Bool Lia DecimalString.
Import ListNotations.
Local Open Scope string_scope.
Local Open Scope Z_scope.
Set Warnings "-register-all".

(** ** Association lists and strings *)

Module Util.

(** The first value bound to [k]. *)
Fixpoint assoc {V} (k : string) (l : list (string * V)) : option V :=
  match l with
  | [] => None
  | (k', v) :: rest => if String.eqb k k' then Some v else assoc k rest
  end.

(** No string occurs twice. *)
Fixpoint distinct (l : list string) : bool :=
  match l with
  | [] => true
  | s :: rest => negb (existsb (String.eqb s) rest) && distinct rest
  end.

(** The pieces of [s] between occurrences of [sep] (never empty). *)
Fixpoint split (sep : ascii) (s : string) : list string :=
  match s with
  | EmptyString => [EmptyString]
  | String c rest =>
      if Ascii.eqb c sep then EmptyString :: split sep rest
      else match split sep rest with
           | p :: ps => String c p :: ps
           | [] => [String c EmptyString]
           end
  end.

Definition digit (c : ascii) : option Z :=
  let n := Z.of_nat (nat_of_ascii c) in
  if (48 <=? n) && (n <=? 57) then Some (n - 48) else None.

Fixpoint decimal_from (acc : Z) (s : string) : option Z :=
  match s with
  | EmptyString => Some acc
  | String c rest =>
      match digit c with
      | Some d => decimal_from (10 * acc + d) rest
      | None => None
      end
  end.

(** The number a non-empty string of decimal digits writes. *)
Definition decimal (s : string) : option Z :=
  match s with
  | EmptyString => None
  | _ => decimal_from 0 s
  end.

(** The last component of a [/]-separated path. *)
Definition basename (p : string) : string := last (split "/" p) EmptyString.

End Util.

(** ** JavaScript completions *)

Module Js.

(** A call either completes normally with a value or throws. *)
Inductive Completion (A : Type) : Type :=
| Normal (a : A)
| Throw (e : string).
Arguments Normal {A} a.
Arguments Throw {A} e.

Definition is_normal {A} (c : Completion A) : bool :=
  match c with Normal _ => true | Throw _ => false end.

(** The value of a completion that carries a state. *)
Definition value {A S} (c : Completion (A * S)) : Completion A :=
  match c with
  | Normal (a, _) => Normal a
  | Throw e => Throw e
  end.

(** [Array.prototype.map]: calls [f] on each element from left to right and
    collects the results in a new array; a throw of [f] propagates. The
    receiver is only read. *)
Fixpoint array_map {A B} (f : A -> Completion B) (l : list A)
  : Completion (list B) :=
  match l with
  | [] => Normal []
  | a :: rest =>
      match f a with
      | Throw e => Throw e
      | Normal b =>
          match array_map f rest with
          | Throw e => Throw e
          | Normal bs => Normal (b :: bs)
          end
      end
  end.

End Js.

(** ** React elements *)

Module React.
Import Util.

(** The [data-grid] object of a cell: [{ x, y, w, h }]. *)
Record Layout : Type := mkLayout { x : Z; y : Z; w : Z; h : Z }.

Inductive PropValue : Type :=
| PStr (s : string)
| PNum (n : Z)
| PNums (ns : list Z)
| PLayout (l : Layout).

Inductive ElementType : Type :=
| Host (tag : string)                  (* <div> *)
| Styled (tag : string) (css : string) (* styled.div`...` *)
| Imported (module_name : string).     (* default import of a module *)

(** What a JSX expression evaluates to: a text, an element, or an array of
    nodes (a JSX child [{grids}] holds the array itself). *)
Inductive Node : Type :=
| Text (s : string)
| Element (type : ElementType) (key : option string)
          (props : list (string * PropValue)) (children : list Node)
| Items (nodes : list Node).

Definition node_key (n : Node) : option string :=
  match n with Element _ k _ _ => k | _ => None end.

Definition node_props (n : Node) : list (string * PropValue) :=
  match n with Element _ _ ps _ => ps | _ => [] end.

Definition node_children (n : Node) : list Node :=
  match n with Element _ _ _ cs => cs | Items ns => ns | Text _ => [] end.

Definition node_prop (name : string) (n : Node) : option PropValue :=
  assoc name (node_props n).

Definition keyed (n : Node) : bool :=
  match n with Element _ (Some _) _ _ => true | _ => false end.

Definition keys_of (ns : list Node) : list string :=
  flat_map (fun n => match node_key n with Some k => [k] | None => [] end) ns.

(** A well-formed tree: no element has two props of one name, and every
    member of an array of nodes is an element with a key that no sibling of
    the array shares (React's rule for lists of children). *)
Fixpoint well_formed (n : Node) : bool :=
  match n with
  | Text _ => true
  | Element _ _ ps cs =>
      distinct (map fst ps) && forallb well_formed cs
  | Items ns =>
      forallb keyed ns && distinct (keys_of ns) && forallb well_formed ns
  end.

End React.

(** ** The dashboard grid component *)

Module Dashboard.
Import Js React.

(** One grid-cell descriptor of [gridLayouts]. *)
Record Descriptor : Type :=
  mkDescriptor { id : string; layout : Layout; render : Node }.

Inductive LogEntry : Type :=
| LogDescriptors (ds : list Descriptor)
| LogNodes (ns : list Node).

(** The state a render reads and writes: the component's one hook slot (the
    value memoised by [useMemo] with its dependency array) and the console. *)
Record World : Type :=
  mkWorld { memo : option (list Descriptor * list Z);
            console : list LogEntry }.

Definition Render (A : Type) : Type := World -> Completion (A * World).

Definition ret {A} (a : A) : Render A := fun wd => Normal (a, wd).

Definition bind {A B} (m : Render A) (k : A -> Render B) : Render B :=
  fun wd =>
    match m wd with
    | Throw e => Throw e
    | Normal (a, wd') => k a wd'
    end.

Definition lift {A} (c : Completion A) : Render A :=
  fun wd =>
    match c with
    | Throw e => Throw e
    | Normal a => Normal (a, wd)
    end.

Notation "'const' v '<-' m ';;' k" := (bind m (fun v => k))
  (at level 61, v name, m at next level, right associativity).
Notation "m ';;' k" := (bind m (fun _ => k))
  (at level 61, right associativity).

(** React's comparison of a dependency array with the stored one: the
    entries are compared pairwise up to the end of the shorter array. *)
Fixpoint deps_equal (next prev : list Z) : bool :=
  match next, prev with
  | u :: next', v :: prev' => Z.eqb u v && deps_equal next' prev'
  | _, _ => true
  end.

(** [useMemo(factory, deps)]: on the first render, or when the dependency
    array differs from the stored one, call [factory] and store its value
    with [deps]; otherwise hand back the stored value itself and leave the
    slot as it is. *)
Definition useMemo (factory : unit -> Completion (list Descriptor))
           (deps : list Z) : Render (list Descriptor) :=
  fun wd =>
    let compute :=
      match factory tt with
      | Throw e => Throw e
      | Normal v => Normal (v, mkWorld (Some (v, deps)) (console wd))
      end in
    match memo wd with
    | Some (v, prev) => if deps_equal deps prev then Normal (v, wd) else compute
    | None => compute
    end.

(** [console.log(v)]: appends to the console, reads [v] only. *)
Definition console_log (e : LogEntry) : Render unit :=
  fun wd => Normal (tt, mkWorld (memo wd) (console wd ++ [e])).

(** [styled.div] with the style sheet of lines 9-25 (line breaks written as
    spaces). *)
Definition StyledDashboardGrid : ElementType :=
  Styled "div"
    "width: 768px; margin-right: auto; margin-left: auto; background-color: var(--gray-3); border: 1px solid var(--gray-4); border-radius: 4px; .adm-pin-item { background-color: white; height: 100%; border-radius: 8px; border: 1px solid var(--gray-4); padding: 16px; box-shadow: rgba(0, 0, 0, 0.1) 0px 10px 15px -3px, rgba(0, 0, 0, 0.05) 0px 4px 6px -2px; }".

Definition GridLayout : ElementType := Imported "react-grid-layout".

(** The factory passed to [useMemo]: the array literal of lines 30-41. *)
Definition gridLayouts (_ : unit) : Completion (list Descriptor) :=
  Normal
    [ {| id := "a";
         layout := {| x := 0; y := 0; w := 6; h := 6 |};
         render := Element (Host "div") None
                     [("className", PStr "adm-pin-item")] [Text "a"] |};
      {| id := "b";
         layout := {| x := 6; y := 0; w := 6; h := 6 |};
         render := Element (Host "div") None
                     [("className", PStr "adm-pin-item")] [Text "b"] |} ].

(** The callback of [gridLayouts.map]:
    [<div key={item.id} data-grid={item.layout}>{item.render}</div>]. *)
Definition cell (item : Descriptor) : Completion Node :=
  Normal (Element (Host "div") (Some (id item))
            [("data-grid", PLayout (layout item))] [render item]).

(** [gridLayouts.map(...)] on the list [useMemo] returned. *)
Definition grids (layouts : list Descriptor) : Completion (list Node) :=
  array_map cell layouts.

Definition DashboardGrid : Render Node :=
  const gl <- useMemo gridLayouts [] ;;
  console_log (LogDescriptors gl) ;;
  const gs <- lift (grids gl) ;;
  console_log (LogNodes gs) ;;
  ret (Element StyledDashboardGrid None [("className", PStr "mt-12")]
         [ Element GridLayout None
             [ ("className", PStr "layout");
               ("cols", PNum 12);
               ("margin", PNums [16; 16]);
               ("rowHeight", PNum 30);
               ("width", PNum 768) ]
             [ Items gs ] ]).

(** The world before the component is mounted. *)
Definition mount : World := mkWorld None [].

(** The world after [n] renders of the mounted component ([None] if one of
    them threw). *)
Fixpoint rendered (n : nat) : option World :=
  match n with
  | O => Some mount
  | S n' =>
      match rendered n' with
      | None => None
      | Some wd =>
          match DashboardGrid wd with
          | Throw _ => None
          | Normal (_, wd') => Some wd'
          end
      end
  end.

End Dashboard.

(** ** YAML values *)

Module Yaml.

Inductive Value : Type :=
| YStr (s : string)
| YInt (n : Z)
| YBool (b : bool)
| YNull
| YSeq (items : list Value)
| YMap (entries : list (string * Value)).

(** [v[k]] for a mapping [v]. *)
Definition get (k : string) (v : Value) : option Value :=
  match v with
  | YMap es => Util.assoc k es
  | _ => None
  end.

Definition keys (v : Value) : list string :=
  match v with
  | YMap es => map fst es
  | _ => []
  end.

Definition has_key (k : string) (v : Value) : bool :=
  existsb (String.eqb k) (keys v).

Definition items (v : Value) : list Value :=
  match v with
  | YSeq l => l
  | _ => []
  end.

Definition entries (v : Value) : list (string * Value) :=
  match v with
  | YMap es => es
  | _ => []
  end.

Definition as_string (v : Value) : option string :=
  match v with
  | YStr s => Some s
  | _ => None
  end.

Definition as_int (v : Value) : option Z :=
  match v with
  | YInt n => Some n
  | _ => None
  end.

(** The value under a path of keys. *)
Fixpoint at_path (path : list string) (v : Value) : option Value :=
  match path with
  | [] => Some v
  | k :: rest =>
      match get k v with
      | Some v' => at_path rest v'
      | None => None
      end
  end.

(** The scalar leaves of a value, in document order. *)
Fixpoint scalars (v : Value) : list Value :=
  match v with
  | YSeq l => flat_map scalars l
  | YMap es => flat_map (fun e => match e with (_, v') => scalars v' end) es
  | YNull => []
  | _ => [v]
  end.

End Yaml.

(** ** The AI-service configuration fixture: [config.test.yaml] *)

Module Config.
Import Yaml.

Definition path : string := "wren-ai-service/tests/data/config.test.yaml".

Definition llm_doc : Value :=
  YMap [ ("type", YStr "llm");
         ("provider", YStr "openai_llm");
         ("models",
          YSeq [ YMap [ ("model", YStr "gpt-4o-mini");
                        ("kwargs",
                         YMap [ ("temperature", YInt 0);
                                ("n", YInt 1);
                                ("max_tokens", YInt 4096);
                                ("response_format",
                                 YMap [ ("type", YStr "json_object") ]) ]) ] ]);
         ("api_base", YStr "https://api.openai.com/v1") ].

Definition embedder_doc : Value :=
  YMap [ ("type", YStr "embedder");
         ("provider", YStr "openai_embedder");
         ("models",
          YSeq [ YMap [ ("model", YStr "text-embedding-3-large");
                        ("dimension", YInt 3072) ] ]);
         ("api_base", YStr "https://api.openai.com/v1");
         ("timeout", YInt 120) ].

Definition engine_doc : Value :=
  YMap [ ("type", YStr "engine");
         ("provider", YStr "wren_ui");
         ("endpoint", YStr "http://localhost:3000") ].

Definition document_store_doc : Value :=
  YMap [ ("type", YStr "document_store");
         ("provider", YStr "qdrant");
         ("location", YStr "http://localhost:6333");
         ("embedding_model_dim", YInt 3072);
         ("timeout", YInt 120) ].

Definition pipeline_doc : Value :=
  YMap [ ("type", YStr "pipeline");
         ("pipes",
          YSeq [ YMap [ ("name", YStr "indexing");
                        ("embedder", YStr "openai_embedder.text-embedding-3-large");
                        ("document_store", YStr "qdrant") ];
                 YMap [ ("name", YStr "retrieval");
                        ("llm", YStr "openai_llm.gpt-4o-mini");
                        ("embedder", YStr "openai_embedder.text-embedding-3-large");
                        ("document_store", YStr "qdrant") ];
                 YMap [ ("name", YStr "historical_question_retrieval");
                        ("embedder", YStr "openai_embedder.text-embedding-3-large");
                        ("document_store", YStr "qdrant") ];
                 YMap [ ("name", YStr "sql_generation");
                        ("llm", YStr "openai_llm.gpt-4o-mini");
                        ("engine", YStr "wren_ui") ];
                 YMap [ ("name", YStr "sql_correction");
                        ("llm", YStr "openai_llm.gpt-4o-mini");
                        ("engine", YStr "wren_ui") ];
                 YMap [ ("name", YStr "followup_sql_generation");
                        ("llm", YStr "openai_llm.gpt-4o-mini");
                        ("engine", YStr "wren_ui") ];
                 YMap [ ("name", YStr "sql_answer");
                        ("llm", YStr "openai_llm.gpt-4o-mini");
                        ("engine", YStr "wren_ui") ];
                 YMap [ ("name", YStr "sql_explanation");
                        ("llm", YStr "openai_llm.gpt-4o-mini") ];
                 YMap [ ("name", YStr "sql_regeneration");
                        ("llm", YStr "openai_llm.gpt-4o-mini");
                        ("engine", YStr "wren_ui") ];
                 YMap [ ("name", YStr "semantics_description");
                        ("llm", YStr "openai_llm.gpt-4o-mini") ];
                 YMap [ ("name", YStr "relationship_recommendation");
                        ("llm", YStr "openai_llm.gpt-4o-mini");
                        ("engine", YStr "wren_ui") ];
                 YMap [ ("name", YStr "user_guide_assistance");
                        ("llm", YStr "openai_llm.gpt-4o-mini") ];
                 YMap [ ("name", YStr "data_assistance");
                        ("llm", YStr "openai_llm.gpt-4o-mini") ] ]) ].

Definition settings_doc : Value :=
  YMap [ ("settings",
          YMap [ ("host", YStr "127.0.0.1");
                 ("port", YInt 5556);
                 ("column_indexing_batch_size", YInt 50);
                 ("doc_endpoint", YStr "https://docs.getwren.ai");
                 ("is_oss", YBool true);
                 ("table_retrieval_size", YInt 10);
                 ("table_column_retrieval_size", YInt 1000);
                 ("query_cache_maxsize", YInt 1000);
                 ("query_cache_ttl", YInt 3600);
                 ("langfuse_host", YStr "https://cloud.langfuse.com");
                 ("langfuse_enable", YBool false);
                 ("logging_level", YStr "INFO");
                 ("development", YBool false) ]) ].

(** The documents of the file, separated by [---], in file order. *)
Definition documents : list Value :=
  [ llm_doc; embedder_doc; engine_doc; document_store_doc; pipeline_doc;
    settings_doc ].

(** The kind of a section: its [type] field, or [settings] for the document
    that has a [settings] key and no [type]. *)
Definition section_kind (doc : Value) : option string :=
  match get "type" doc with
  | Some (YStr t) => Some t
  | Some _ => None
  | None => if has_key "settings" doc then Some "settings" else None
  end.

Definition sections (kind : string) : list Value :=
  filter (fun d => match section_kind d with
                   | Some k => String.eqb k kind
                   | None => false
                   end) documents.

Definition provider (doc : Value) : list string :=
  match get "provider" doc with
  | Some (YStr p) => [p]
  | _ => []
  end.

(** The models a section declares, each named [provider.model]. *)
Definition provider_models (doc : Value) : list string :=
  flat_map (fun p =>
    flat_map (fun m => match get "model" m with
                       | Some (YStr name) => [p ++ "." ++ name]
                       | _ => []
                       end)
             (match get "models" doc with Some ms => items ms | None => [] end))
    (provider doc).

Definition declared_llms : list string := flat_map provider_models (sections "llm").
Definition declared_embedders : list string :=
  flat_map provider_models (sections "embedder").
Definition declared_document_stores : list string :=
  flat_map provider (sections "document_store").
Definition declared_engines : list string := flat_map provider (sections "engine").

Definition pipes : list Value :=
  flat_map (fun d => match get "pipes" d with Some ps => items ps | None => [] end)
           (sections "pipeline").

(** A pipe's field [k], when present, is the string [expected]. *)
Definition field_is (k expected : string) (pipe : Value) : Prop :=
  match get k pipe with
  | None => True
  | Some v => v = YStr expected
  end.

(** A pipe's field [k], when present, names one of [declared]. *)
Definition field_in (k : string) (declared : list string) (pipe : Value) : Prop :=
  match get k pipe with
  | None => True
  | Some v => In v (map YStr declared)
  end.

(** Every key of a pipe is [name] or one of the four resource fields. *)
Definition pipe_keys_known (pipe : Value) : bool :=
  forallb (fun k => existsb (String.eqb k)
                      ["name"; "llm"; "embedder"; "document_store"; "engine"])
          (keys pipe).

(** The dimensions the embedder sections give their models. *)
Definition embedder_dimensions : list Z :=
  flat_map (fun d =>
    flat_map (fun m => match get "dimension" m with
                       | Some (YInt n) => [n]
                       | _ => []
                       end)
             (match get "models" d with Some ms => items ms | None => [] end))
    (sections "embedder").

Definition document_store_dimensions : list Z :=
  flat_map (fun d => match get "embedding_model_dim" d with
                     | Some (YInt n) => [n]
                     | _ => []
                     end)
           (sections "document_store").

End Config.

(** ** The Docker Compose manifest *)

Module Compose.
Import Yaml.

Definition manifest : Value :=
  YMap [ ("version", YStr "3");
         ("volumes", YMap [ ("data", YNull) ]);
         ("networks", YMap [ ("wren", YMap [ ("driver", YStr "bridge") ]) ]);
         ("services",
          YMap [ ("bootstrap",
                  YMap [ ("image", YStr "ghcr.io/canner/wren-bootstrap:${WREN_BOOTSTRAP_VERSION}");
                         ("pull_policy", YStr "always");
                         ("platform", YStr "${PLATFORM}");
                         ("environment", YMap [ ("DATA_PATH", YStr "/app/data") ]);
                         ("volumes", YSeq [ YStr "data:/app/data" ]);
                         ("command", YStr "/bin/sh /app/init.sh") ]);
                 ("wren-engine",
                  YMap [ ("image", YStr "ghcr.io/canner/wren-engine:${WREN_ENGINE_VERSION}");
                         ("pull_policy", YStr "always");
                         ("platform", YStr "${PLATFORM}");
                         ("expose", YSeq [ YStr "${WREN_ENGINE_SQL_PORT}" ]);
                         ("ports", YSeq [ YStr "${WREN_ENGINE_PORT}:${WREN_ENGINE_PORT}" ]);
                         ("volumes", YSeq [ YStr "data:/usr/src/app/etc" ]);
                         ("networks", YSeq [ YStr "wren" ]);
                         ("depends_on", YSeq [ YStr "bootstrap" ]) ]);
                 ("wren-ai-service",
                  YMap [ ("image", YStr "ghcr.io/canner/wren-ai-service:${WREN_AI_SERVICE_VERSION}");
                         ("pull_policy", YStr "always");
                         ("platform", YStr "${PLATFORM}");
                         ("ports", YSeq [ YStr "${AI_SERVICE_FORWARD_PORT}:${WREN_AI_SERVICE_PORT}" ]);
                         ("environment",
                          YMap [ ("WREN_UI_ENDPOINT", YStr "http://host.docker.internal:${WREN_UI_PORT}");
                                 ("PYTHONUNBUFFERED", YInt 1);
                                 ("CONFIG_PATH", YStr "/app/config.yaml") ]);
                         ("env_file", YSeq [ YStr "${PROJECT_DIR}/.env" ]);
                         ("volumes",
                          YSeq [ YStr "${PROJECT_DIR}/config.yaml:/app/config.yaml:ro";
                                 YStr "${PROJECT_DIR}/data:/app/data:ro" ]);
                         ("networks", YSeq [ YStr "wren" ]);
                         ("depends_on", YSeq [ YStr "qdrant" ]) ]);
                 ("ibis-server",
                  YMap [ ("image", YStr "ghcr.io/canner/wren-engine-ibis:${IBIS_SERVER_VERSION}");
                         ("pull_policy", YStr "always");
                         ("platform", YStr "${PLATFORM}");
                         ("expose", YSeq [ YInt 8000 ]);
                         ("ports", YSeq [ YStr "${IBIS_SERVER_PORT}:8000" ]);
                         ("environment",
                          YMap [ ("WREN_ENGINE_ENDPOINT", YStr "http://wren-engine:${WREN_ENGINE_PORT}");
                                 ("LOG_LEVEL", YStr "DEBUG") ]);
                         ("networks", YSeq [ YStr "wren" ]) ]);
                 ("qdrant",
                  YMap [ ("image", YStr "qdrant/qdrant:v1.11.0");
                         ("pull_policy", YStr "always");
                         ("ports", YSeq [ YStr "6333:6333"; YStr "6334:6334" ]);
                         ("networks", YSeq [ YStr "wren" ]) ]) ]) ].

(** The declared services: the entries of the top-level [services] mapping. *)
Definition services : list (string * Value) :=
  match get "services" manifest with
  | Some s => entries s
  | None => []
  end.

Definition service_names : list string := map fst services.

Definition service (name : string) : option Value := Util.assoc name services.

(** A service runs a pre-built image when it has an [image] field and no
    [build] field. *)
Definition prebuilt (svc : Value) : bool :=
  has_key "image" svc && negb (has_key "build" svc).

End Compose.

(** ** What the artifacts declare and what they mention *)

Module Artifacts.
Import Util Yaml.

(** A literal of an artifact: a string or a number. *)
Inductive Atom : Type :=
| AStr (s : string)
| ANum (n : Z).

(** Something an artifact declares for others to bind to. *)
Inductive Resource : Type :=
| Service (name : string)
| Endpoint (url : string)
| Port (n : Z)
| File (path : string).

(** The text after [scheme://] up to the next [/]: [host] or [host:port]. *)
Definition authority (url : string) : option string :=
  match index 0 "://" url with
  | Some i =>
      Some (hd EmptyString
              (split "/" (substring (i + 3) (String.length url - (i + 3)) url)))
  | None => None
  end.

Definition url_host (url : string) : option string :=
  match authority url with
  | Some a => Some (hd EmptyString (split ":" a))
  | None => None
  end.

Definition is_url (s : string) : bool :=
  match authority s with Some _ => true | None => false end.

(** The port numbers a string writes: the [:]-separated pieces that are
    decimal numbers up to their first [/] (the port of [http://host:6333],
    both ports of a Compose mapping [6333:6333]). *)
Definition ports_in (s : string) : list Z :=
  match split ":" s with
  | [] | [_] => []
  | pieces =>
      flat_map (fun p => match decimal (hd EmptyString (split "/" p)) with
                         | Some n => [n]
                         | None => []
                         end) pieces
  end.

(** The paths a string writes: its [:]-separated pieces (source and target
    of a Compose volume). *)
Definition paths_in (s : string) : list string := split ":" s.

(** A literal refers to a resource: it names the service (as a word or as the
    host of a URL), is the endpoint's URL, is or writes the port number, or
    writes a path with the file's name. *)
Definition refers (a : Atom) (r : Resource) : bool :=
  match r, a with
  | Service name, AStr s =>
      String.eqb s name
      || match url_host s with Some host => String.eqb host name | None => false end
  | Endpoint url, AStr s => String.eqb s url
  | Port n, ANum m => Z.eqb m n
  | Port n, AStr s => existsb (Z.eqb n) (ports_in s)
  | File path, AStr s =>
      existsb (fun p => String.eqb (basename p) (basename path)) (paths_in s)
  | _, _ => false
  end.

(** The pairs (literal, resource) in which a literal of the first list
    refers to a resource of the second. *)
Definition bindings (literals : list Atom) (declared : list Resource)
  : list (Atom * Resource) :=
  flat_map (fun a => map (pair a) (filter (refers a) declared)) literals.

Definition atom_eqb (a b : Atom) : bool :=
  match a, b with
  | AStr s, AStr t => String.eqb s t
  | ANum n, ANum m => Z.eqb n m
  | _, _ => false
  end.

Definition resource_eqb (r q : Resource) : bool :=
  match r, q with
  | Service s, Service t | Endpoint s, Endpoint t | File s, File t =>
      String.eqb s t
  | Port n, Port m => Z.eqb n m
  | _, _ => false
  end.

(** The bindings of a list, each once, in the order of first occurrence. *)
Fixpoint nodup_bindings (l : list (Atom * Resource)) : list (Atom * Resource) :=
  match l with
  | [] => []
  | b :: rest =>
      b :: filter (fun c => negb (atom_eqb (fst b) (fst c)
                                  && resource_eqb (snd b) (snd c)))
                  (nodup_bindings rest)
  end.

Definition independent_of (literals : list Atom) (declared : list Resource)
  : bool :=
  forallb (fun a => forallb (fun r => negb (refers a r)) declared) literals.

(** *** Literals *)

Definition yaml_atoms (v : Value) : list Atom :=
  flat_map (fun s => match s with
                     | YStr t => [AStr t]
                     | YInt n => [ANum n]
                     | _ => []
                     end) (scalars v).

Definition prop_atoms (p : React.PropValue) : list Atom :=
  match p with
  | React.PStr s => [AStr s]
  | React.PNum n => [ANum n]
  | React.PNums ns => map ANum ns
  | React.PLayout l => [ANum (React.x l); ANum (React.y l);
                        ANum (React.w l); ANum (React.h l)]
  end.

Definition type_atoms (t : React.ElementType) : list Atom :=
  match t with
  | React.Host tag => [AStr tag]
  | React.Styled tag css => [AStr tag; AStr css]
  | React.Imported m => [AStr m]
  end.

Fixpoint node_atoms (n : React.Node) : list Atom :=
  match n with
  | React.Text s => [AStr s]
  | React.Element t k ps cs =>
      type_atoms t
      ++ match k with Some s => [AStr s] | None => [] end
      ++ flat_map (fun p => prop_atoms (snd p)) ps
      ++ flat_map node_atoms cs
  | React.Items ns => flat_map node_atoms ns
  end.

(** The module specifiers of the component's [import] lines. *)
Definition imports : list string :=
  [ "react"; "react-grid-layout"; "styled-components";
    "react-grid-layout/css/styles.css"; "react-resizable/css/styles.css" ].

(** The literals of the component: its imports and what its first render
    returns. *)
Definition component_atoms : list Atom :=
  map AStr imports
  ++ match Dashboard.DashboardGrid Dashboard.mount with
     | Js.Normal (tree, _) => node_atoms tree
     | Js.Throw _ => []
     end.

Definition fixture_atoms : list Atom := flat_map yaml_atoms Config.documents.

Definition compose_atoms : list Atom := yaml_atoms Compose.manifest.

(** *** Declarations *)

Definition url_resources (v : Value) : list Resource :=
  match v with
  | YStr s => if is_url s then Endpoint s :: map Port (ports_in s) else []
  | _ => []
  end.

(** The fixture declares its own file, the provider of each section, the
    URLs its sections give and their ports, and the port of [settings]. *)
Definition fixture_declares : list Resource :=
  File Config.path
  :: flat_map (fun d => map Service (Config.provider d)) Config.documents
  ++ flat_map (fun d => flat_map url_resources (scalars d)) Config.documents
  ++ flat_map (fun d => match at_path ["settings"; "port"] d with
                        | Some (YInt n) => [Port n]
                        | _ => []
                        end) Config.documents.

Definition seq_at (k : string) (v : Value) : list Value :=
  match get k v with Some l => items l | None => [] end.

Definition port_resources (v : Value) : list Resource :=
  match v with
  | YInt n => [Port n]
  | YStr s => map Port (match split ":" s with
                        | [p] => match decimal p with Some n => [n] | None => [] end
                        | _ => ports_in s
                        end)
  | _ => []
  end.

Definition volume_resources (v : Value) : list Resource :=
  match v with
  | YStr s => match paths_in s with
              | src :: target :: _ => [File src; File target]
              | _ => []
              end
  | _ => []
  end.

Definition file_resources (v : Value) : list Resource :=
  match v with YStr s => [File s] | _ => [] end.

(** The Compose manifest declares its services, the ports they expose and
    publish, the files and volumes they mount or load, and the URLs of their
    environment. *)
Definition service_declares (s : string * Value) : list Resource :=
  Service (fst s)
  :: flat_map port_resources (seq_at "expose" (snd s) ++ seq_at "ports" (snd s))
  ++ flat_map volume_resources (seq_at "volumes" (snd s))
  ++ flat_map file_resources (seq_at "env_file" (snd s))
  ++ flat_map url_resources
       (match get "environment" (snd s) with Some e => scalars e | None => [] end).

Definition compose_declares : list Resource :=
  flat_map service_declares Compose.services.

(** The component declares the files it imports. *)
Definition component_declares : list Resource := map File imports.

(** The three artifacts with what each mentions and declares. *)
Definition artifacts : list (string * (list Atom * list Resource)) :=
  [ ("fixture", (fixture_atoms, fixture_declares));
    ("component", (component_atoms, component_declares));
    ("compose", (compose_atoms, compose_declares)) ].

(** No literal of one artifact refers to a resource another one declares. *)
Definition all_independent : bool :=
  forallb (fun a =>
    forallb (fun b =>
      String.eqb (fst a) (fst b)
      || independent_of (fst (snd a)) (snd (snd b))) artifacts) artifacts.

End Artifacts.

(** ** Reading a rendered tree *)

Module Rendered.
Import Js React Dashboard.

(** The children of an element with arrays of nodes spliced in, as React
    reads them. *)
Definition flat_children (n : Node) : list Node :=
  flat_map (fun c => match c with Items ns => ns | _ => [c] end)
           (node_children n).

Definition is_grid (n : Node) : bool :=
  match n with
  | Element (Imported m) _ _ _ => String.eqb m "react-grid-layout"
  | _ => false
  end.

(** The [GridLayout] element of the tree the component returns. *)
Definition grid (tree : Node) : option Node := find is_grid (node_children tree).

(** The cells handed to [GridLayout]. *)
Definition grid_cells (tree : Node) : list Node :=
  match grid tree with
  | Some g => flat_children g
  | None => []
  end.

Definition grid_cols (tree : Node) : option Z :=
  match grid tree with
  | Some g => match node_prop "cols" g with
              | Some (PNum n) => Some n
              | _ => None
              end
  | None => None
  end.

(** Key and [data-grid] layout of each cell that has both. *)
Definition cell_layouts (tree : Node) : list (string * Layout) :=
  flat_map (fun c => match node_key c, node_prop "data-grid" c with
                     | Some k, Some (PLayout l) => [(k, l)]
                     | _, _ => []
                     end) (grid_cells tree).

(** The columns [x, x + w) a layout occupies. *)
Definition columns (l : Layout) : Z * Z := (x l, x l + w l).

(** Two layouts share a column. *)
Definition columns_overlap (a b : Layout) : bool :=
  (x a <? x b + w b) && (x b <? x a + w a).

(** How many nodes of [ns] carry the key [k]. *)
Definition count_key (k : string) (ns : list Node) : nat :=
  List.length (filter (fun n => match node_key n with
                                | Some k' => String.eqb k k'
                                | None => false
                                end) ns).

(** What [cell] builds for a descriptor. *)
Definition is_cell_of (d : Descriptor) (c : Node) : Prop :=
  node_key c = Some (id d)
  /\ node_prop "data-grid" c = Some (PLayout (layout d))
  /\ node_children c = [render d].

(** The list a render works on: the memoised one if there is one (the empty
    dependency array of the component never differs from the stored one), the
    literal otherwise. *)
Definition current (wd : World) : Completion (list Descriptor) :=
  match memo wd with
  | Some (v, prev) => if deps_equal [] prev then Normal v else gridLayouts tt
  | None => gridLayouts tt
  end.

(** The hook slot after a render that worked on [gl]. *)
Definition slot_after (wd : World) (gl : list Descriptor)
  : option (list Descriptor * list Z) :=
  match memo wd with
  | Some m => Some m
  | None => Some (gl, [])
  end.

End Rendered.

(** ** Reading the pipeline section *)

Module Pipeline.
Import Util Yaml Config.

Definition pipe_name (pipe : Value) : option string :=
  match get "name" pipe with
  | Some (YStr s) => Some s
  | _ => None
  end.

(** The first pipe of the pipeline section with the given name. *)
Definition find_pipe (name : string) : option Value :=
  find (fun p => match pipe_name p with
                 | Some s => String.eqb s name
                 | None => false
                 end) pipes.

(** The strings the pipes give for the field [k], in file order. *)
Definition used (k : string) : list string :=
  flat_map (fun p => match get k p with
                     | Some (YStr s) => [s]
                     | _ => []
                     end) pipes.

(** The text before [://]. *)
Definition url_scheme (url : string) : option string :=
  match index 0 "://" url with
  | Some i => Some (substring 0 i url)
  | None => None
  end.

(** The URLs among the scalars of the fixture, in file order. *)
Definition urls : list string :=
  flat_map (fun d =>
    flat_map (fun v => match v with
                       | YStr s => if Artifacts.is_url s then [s] else []
                       | _ => []
                       end) (scalars d)) documents.

Definition is_local (url : string) : bool :=
  match Artifacts.url_host url with
  | Some host => String.eqb host "localhost"
  | None => false
  end.

(** The port the service itself listens on: [settings.port]. *)
Definition settings_ports : list Z :=
  flat_map (fun d => match at_path ["settings"; "port"] d with
                     | Some (YInt n) => [n]
                     | _ => []
                     end) documents.

(** The ports on this machine the fixture names: those of its [localhost]
    URLs and the one of [settings]. *)
Definition local_ports : list Z :=
  flat_map Artifacts.ports_in (filter is_local urls) ++ settings_ports.

End Pipeline.

(** ** Reading the services of the manifest *)

Module Wiring.
Import Util Yaml Compose.

(** The strings of the sequence under [k]. *)
Definition strings_at (k : string) (svc : Value) : list string :=
  flat_map (fun v => match v with YStr s => [s] | _ => [] end)
           (match get k svc with Some l => items l | None => [] end).

Definition depends_on (svc : Value) : list string := strings_at "depends_on" svc.

(** The networks a service lists under [networks]. *)
Definition listed_networks (svc : Value) : list string :=
  strings_at "networks" svc.

(** The networks a service joins: the ones it lists, or, when it has no
    [networks] key, the implicit [default] network of Compose alone. *)
Definition networks_of (svc : Value) : list string :=
  if has_key "networks" svc then listed_networks svc else ["default"].

Definition declared_networks : list string :=
  match get "networks" manifest with Some n => keys n | None => [] end.

Definition declared_volumes : list string :=
  match get "volumes" manifest with Some v => keys v | None => [] end.

Fixpoint position (name : string) (l : list string) : option nat :=
  match l with
  | [] => None
  | s :: rest =>
      if String.eqb s name then Some O
      else match position name rest with
           | Some i => Some (S i)
           | None => None
           end
  end.

(** [a] comes before [b] in [order]. *)
Definition before (order : list string) (a b : string) : bool :=
  match position a order, position b order with
  | Some i, Some j => Nat.ltb i j
  | _, _ => false
  end.

(** Starting the services in [order] starts every service after the ones it
    depends on. *)
Definition starts_in_order (order : list string) : bool :=
  forallb (fun s => forallb (fun d => before order d (fst s))
                            (depends_on (snd s))) services.

(** A mount [source:target] or [source:target:mode]; the mode is [rw] when
    it is not written. *)
Record Mount : Type := mkMount { source : string; target : string; mode : string }.

Definition mounts (svc : Value) : list Mount :=
  flat_map (fun s => match split ":" s with
                     | [src; tgt] => [mkMount src tgt "rw"]
                     | [src; tgt; m] => [mkMount src tgt m]
                     | _ => []
                     end) (strings_at "volumes" svc).

(** A source that writes a path is a bind mount, a bare name a volume. *)
Definition is_bind (m : Mount) : bool :=
  match split "/" (source m) with
  | [] | [_] => false
  | _ => true
  end.

Definition environment (svc : Value) : list (string * Value) :=
  match get "environment" svc with Some e => entries e | None => [] end.

(** The absolute paths the environment of a service gives. *)
Definition env_paths (svc : Value) : list string :=
  flat_map (fun e => match snd e with
                     | YStr s => if prefix "/" s then [s] else []
                     | _ => []
                     end) (environment svc).

(** The hosts of the URLs the environment of a service gives. *)
Definition env_hosts (svc : Value) : list string :=
  flat_map (fun e => match snd e with
                     | YStr s => match Artifacts.url_host s with
                                 | Some host => [host]
                                 | None => []
                                 end
                     | _ => []
                     end) (environment svc).

Definition share_network (a b : Value) : bool :=
  existsb (fun n => existsb (String.eqb n) (networks_of b)) (networks_of a).

(** Every host of an environment URL of [svc] that is the name of a service
    is on a network [svc] is on too. *)
Definition reaches_named_services (svc : Value) : bool :=
  forallb (fun host => match service host with
                       | Some peer => share_network svc peer
                       | None => true
                       end) (env_hosts svc).

(** The two sides [host:container] of each entry of [ports]. *)
Definition port_mappings (svc : Value) : list (string * string) :=
  flat_map (fun s => match split ":" s with
                     | [host; container] => [(host, container)]
                     | _ => []
                     end) (strings_at "ports" svc).

(** The ports a service exposes, as written. *)
Definition exposed (svc : Value) : list Value :=
  match get "expose" svc with Some l => items l | None => [] end.

(** The tag of an image: the text after its last [:], if it has one. *)
Definition image_tag (svc : Value) : option string :=
  match get "image" svc with
  | Some (YStr s) => match rev (split ":" s) with
                     | tag :: _ :: _ => Some tag
                     | _ => None
                     end
  | _ => None
  end.

(** The volumes (not paths) a service mounts. *)
Definition named_volumes (svc : Value) : list string :=
  map source (filter (fun m => negb (is_bind m)) (mounts svc)).

Definition shares_volume (a b : Value) : bool :=
  existsb (fun v => existsb (String.eqb v) (named_volumes b)) (named_volumes a).

(** One of the two services depends on the other. *)
Definition ordered (a b : string * Value) : bool :=
  existsb (String.eqb (fst a)) (depends_on (snd b))
  || existsb (String.eqb (fst b)) (depends_on (snd a)).

(** Any two services that mount a common volume are ordered by
    [depends_on]. *)
Definition volume_sharers_ordered : bool :=
  forallb (fun a =>
    forallb (fun b =>
      String.eqb (fst a) (fst b)
      || negb (shares_volume (snd a) (snd b))
      || ordered a b) services) services.

(** The pairs of distinct services that mount a common volume. *)
Definition volume_sharers : list (string * string) :=
  flat_map (fun a =>
    flat_map (fun b =>
      if negb (String.eqb (fst a) (fst b)) && shares_volume (snd a) (snd b)
      then [(fst a, fst b)] else []) services) services.

(** Every literal port a service exposes is the container side of one of
    its port mappings. *)
Definition exposed_are_published (svc : Value) : bool :=
  forallb (fun v => match v with
                    | YInt n => existsb (fun m => match decimal (snd m) with
                                                  | Some k => Z.eqb k n
                                                  | None => false
                                                  end) (port_mappings svc)
                    | _ => true
                    end) (exposed svc).

End Wiring.

(** ** Columns of the grid *)

Module Geometry.
Import React Dashboard.

(** The node [cell] completes with. *)
Definition cell_node (item : Descriptor) : Node :=
  Element (Host "div") (Some (id item))
    [("data-grid", PLayout (layout item))] [render item].

Definition covers (c : Z) (l : Layout) : bool := (x l <=? c) && (c <? x l + w l).

(** The cells whose columns include column [c]. *)
Definition covering (c : Z) (cells : list (string * Layout))
  : list (string * Layout) :=
  filter (fun kl => covers c (snd kl)) cells.

(** The rows [y, y + h) of the layouts. *)
Definition rows (cells : list (string * Layout)) : list (Z * Z) :=
  map (fun kl => (y (snd kl), y (snd kl) + h (snd kl))) cells.

End Geometry.

(** ** The text of the component *)

Module Source.

(** Expressions and statements of the JavaScript the component is written
    in. A JSX element is [Jsx tag attrs children]: a lower-case tag such as
    [div] is the string [Str "div"], a component tag the variable it names;
    a JSX text child is a string. *)
Inductive Expr : Type :=
| Num (n : Z)
| Str (s : string)
| Var (name : string)
| Obj (fields : list (string * Expr))
| Arr (items : list Expr)
| Member (object : Expr) (property : string)
| Call (callee : Expr) (args : list Expr)
| Arrow (params : list string) (body : list Stmt)
| Jsx (tag : Expr) (attrs : list (string * Expr)) (children : list Expr)
| Cond (test consequent alternate : Expr)
with Stmt : Type :=
| Const (name : string) (init : Expr)
| Do (e : Expr)
| Return (e : Expr)
| If (test : Expr) (consequent alternate : list Stmt)
| Try (block : list Stmt) (param : string) (handler : list Stmt)
| ThrowStmt (e : Expr)
| While (test : Expr) (body : list Stmt).

Record Function : Type :=
  mkFunction { name : string; params : list string; body : list Stmt }.

(** Some expression or statement inside [e] (inside [s]) satisfies [pe]
    ([ps]). *)
Fixpoint expr_any (pe : Expr -> bool) (ps : Stmt -> bool) (e : Expr) : bool :=
  pe e
  || match e with
     | Num _ | Str _ | Var _ => false
     | Obj fields =>
         existsb (fun f => match f with (_, e') => expr_any pe ps e' end) fields
     | Arr items => existsb (expr_any pe ps) items
     | Member object _ => expr_any pe ps object
     | Call callee args =>
         expr_any pe ps callee || existsb (expr_any pe ps) args
     | Arrow _ body => existsb (stmt_any pe ps) body
     | Jsx tag attrs children =>
         expr_any pe ps tag
         || existsb (fun a => match a with (_, e') => expr_any pe ps e' end) attrs
         || existsb (expr_any pe ps) children
     | Cond test consequent alternate =>
         expr_any pe ps test || expr_any pe ps consequent
         || expr_any pe ps alternate
     end
with stmt_any (pe : Expr -> bool) (ps : Stmt -> bool) (s : Stmt) : bool :=
  ps s
  || match s with
     | Const _ e | Do e | Return e | ThrowStmt e => expr_any pe ps e
     | If test consequent alternate =>
         expr_any pe ps test || existsb (stmt_any pe ps) consequent
         || existsb (stmt_any pe ps) alternate
     | Try block _ handler =>
         existsb (stmt_any pe ps) block || existsb (stmt_any pe ps) handler
     | While test body =>
         expr_any pe ps test || existsb (stmt_any pe ps) body
     end.

Definition body_any (pe : Expr -> bool) (ps : Stmt -> bool) (f : Function)
  : bool :=
  existsb (stmt_any pe ps) (body f).

Definition never {A} (_ : A) : bool := false.

(** The function has an [if] or a conditional expression. *)
Definition branches (f : Function) : bool :=
  body_any (fun e => match e with Cond _ _ _ => true | _ => false end)
           (fun s => match s with If _ _ _ => true | _ => false end) f.

(** The function has a [try ... catch]. *)
Definition catches (f : Function) : bool :=
  body_any never (fun s => match s with Try _ _ _ => true | _ => false end) f.

(** The function has a [throw]. *)
Definition throws (f : Function) : bool :=
  body_any never (fun s => match s with ThrowStmt _ => true | _ => false end) f.

(** The function has a loop. *)
Definition loops (f : Function) : bool :=
  body_any never (fun s => match s with While _ _ => true | _ => false end) f.

(** The function names the variable [x]. *)
Definition mentions (x : string) (f : Function) : bool :=
  body_any (fun e => match e with Var y => String.eqb x y | _ => false end)
           never f.

(** The function can run something again: it loops or names itself. *)
Definition retries (f : Function) : bool := loops f || mentions (name f) f.

(** Lines 28-69 of [dashboardGrid/index.tsx]. *)
Definition DashboardGrid : Function :=
  {| name := "DashboardGrid";
     params := [];
     body :=
       [ Const "gridLayouts"
           (Call (Var "useMemo")
              [ Arrow []
                  [ Return
                      (Arr
                         [ Obj [ ("id", Str "a");
                                 ("layout", Obj [ ("x", Num 0); ("y", Num 0);
                                                  ("w", Num 6); ("h", Num 6) ]);
                                 ("render",
                                  Jsx (Str "div")
                                    [ ("className", Str "adm-pin-item") ]
                                    [ Str "a" ]) ];
                           Obj [ ("id", Str "b");
                                 ("layout", Obj [ ("x", Num 6); ("y", Num 0);
                                                  ("w", Num 6); ("h", Num 6) ]);
                                 ("render",
                                  Jsx (Str "div")
                                    [ ("className", Str "adm-pin-item") ]
                                    [ Str "b" ]) ] ]) ];
                Arr [] ]);
         Do (Call (Member (Var "console") "log") [ Var "gridLayouts" ]);
         Const "grids"
           (Call (Member (Var "gridLayouts") "map")
              [ Arrow [ "item" ]
                  [ Return
                      (Jsx (Str "div")
                         [ ("key", Member (Var "item") "id");
                           ("data-grid", Member (Var "item") "layout") ]
                         [ Member (Var "item") "render" ]) ] ]);
         Do (Call (Member (Var "console") "log") [ Var "grids" ]);
         Return
           (Jsx (Var "StyledDashboardGrid") [ ("className", Str "mt-12") ]
              [ Jsx (Var "GridLayout")
                  [ ("className", Str "layout");
                    ("cols", Num 12);
                    ("margin", Arr [ Num 16; Num 16 ]);
                    ("rowHeight", Num 30);
                    ("width", Num 768) ]
                  [ Var "grids" ] ]) ] |}.

End Source.

(** ** Running the text of the component *)

Module Eval.
Import Util React Source.

Inductive Builtin : Type :=
| UseMemo      (* useMemo of react *)
| ConsoleLog   (* console.log *)
| ArrayMap.    (* Array.prototype.map *)

Inductive Val : Type :=
| VUndefined
| VNum (n : Z)
| VStr (s : string)
| VObject (fields : list (string * Val))
| VArray (items : list Val)
| VClosure (params : list string) (body : list Stmt) (env : list (string * Val))
| VBuiltin (b : Builtin)
| VType (t : ElementType)
| VElement (type : ElementType) (key : option string)
           (props : list (string * Val)) (children : list Val).

Definition Env : Type := list (string * Val).

(** The hook slot of the component, which calls one hook (the memoised value
    and the dependency array stored with it, if one was given), and the
    console, one entry per call of [console.log] with its arguments. *)
Record World : Type :=
  mkWorld { slot : option (Val * option (list Val)); log : list (list Val) }.

(** A run ends with a value, with a thrown value, or is cut off. *)
Inductive Result (A : Type) : Type :=
| Done (a : A) (wd : World)
| Thrown (v : Val) (wd : World)
| OutOfFuel.
Arguments Done {A} a wd.
Arguments Thrown {A} v wd.
Arguments OutOfFuel {A}.

(** How a list of statements ends: at its end, or at a [return]. *)
Inductive Outcome : Type :=
| Finished
| Returned (v : Val).

Definition andThen {A B} (r : Result A) (k : A -> World -> Result B)
  : Result B :=
  match r with
  | Done a wd => k a wd
  | Thrown v wd => Thrown v wd
  | OutOfFuel => OutOfFuel
  end.

Definition error (kind message : string) : Val :=
  VObject [ ("name", VStr kind); ("message", VStr message) ].

Definition callable (v : Val) : bool :=
  match v with
  | VClosure _ _ _ | VBuiltin _ => true
  | _ => false
  end.

Definition truthy (v : Val) : bool :=
  match v with
  | VUndefined => false
  | VNum n => negb (Z.eqb n 0)
  | VStr s => negb (String.eqb s "")
  | _ => true
  end.

(** [object.property]: reading a property of [undefined] throws a
    [TypeError]; a property an object does not have is [undefined]. Of the
    properties values are born with, [map] and [length] of arrays, [length]
    of strings and [props] and [key] of elements are there. *)
Definition get_property (object : Val) (property : string) (wd : World)
  : Result Val :=
  match object with
  | VUndefined =>
      Thrown (error "TypeError" "Cannot read properties of undefined") wd
  | VObject fields =>
      Done (match assoc property fields with
            | Some v => v
            | None => VUndefined
            end) wd
  | VArray items =>
      Done (if String.eqb property "map" then VBuiltin ArrayMap
            else if String.eqb property "length"
                 then VNum (Z.of_nat (List.length items))
                 else VUndefined) wd
  | VElement type key props children =>
      Done (if String.eqb property "props"
            then VObject (props ++ [ ("children", VArray children) ])%list
            else if String.eqb property "key"
                 then match key with Some k => VStr k | None => VUndefined end
                 else VUndefined) wd
  | VStr s =>
      Done (if String.eqb property "length"
            then VNum (Z.of_nat (String.length s))
            else VUndefined) wd
  | _ => Done VUndefined wd
  end.

(** The string a value is turned into where one is needed. A function
    prints as [function] here (in JavaScript, as its source text). *)
Fixpoint to_string (v : Val) : string :=
  match v with
  | VUndefined => "undefined"
  | VNum n => DecimalString.NilZero.string_of_int (Z.to_int n)
  | VStr s => s
  | VArray items =>
      String.concat ","
        (map (fun item => match item with
                          | VUndefined => ""
                          | _ => to_string item
                          end) items)
  | VObject _ | VElement _ _ _ _ => "[object Object]"
  | VClosure _ _ _ | VBuiltin _ | VType _ => "function"
  end.

(** The key of an element: none when the [key] attribute is [undefined],
    else its value as a string. *)
Definition key_of (v : Val) : option string :=
  match v with
  | VUndefined => None
  | _ => Some (to_string v)
  end.

Fixpoint remove_key (attrs : list (string * Val)) : list (string * Val) :=
  match attrs with
  | [] => []
  | (k, v) :: rest =>
      if String.eqb k "key" then remove_key rest else (k, v) :: remove_key rest
  end.

(** The element a JSX expression builds from its evaluated parts; a tag that
    is neither a string nor a component is refused. *)
Definition create_element (tag : Val) (attrs : list (string * Val))
           (children : list Val) (wd : World) : Result Val :=
  let key := match assoc "key" (rev attrs) with
             | Some v => key_of v
             | None => None
             end in
  match tag with
  | VStr s => Done (VElement (Host s) key (remove_key attrs) children) wd
  | VType t => Done (VElement t key (remove_key attrs) children) wd
  | _ => Thrown (error "Error" "Element type is invalid") wd
  end.

(** The parameters bound to the arguments, [undefined] where one is
    missing. *)
Fixpoint bind_params (params : list string) (args : list Val) : Env :=
  match params with
  | [] => []
  | p :: ps =>
      match args with
      | [] => (p, VUndefined) :: bind_params ps []
      | a :: rest => (p, a) :: bind_params ps rest
      end
  end.

(** [Object.is] on the values whose identity their content decides; two
    objects made at different times are never the same. *)
Definition same_value (a b : Val) : bool :=
  match a, b with
  | VUndefined, VUndefined => true
  | VNum n, VNum m => Z.eqb n m
  | VStr s, VStr t => String.eqb s t
  | _, _ => false
  end.

(** React's comparison of the dependency arrays, up to the end of the
    shorter one. *)
Fixpoint deps_equal (next prev : list Val) : bool :=
  match next, prev with
  | u :: next', v :: prev' => same_value u v && deps_equal next' prev'
  | _, _ => true
  end.

Section Lists.
Variable ev : Expr -> World -> Result Val.

(** Expressions are evaluated from left to right; the first throw ends the
    evaluation. *)
Fixpoint eval_all (es : list Expr) (wd : World) : Result (list Val) :=
  match es with
  | [] => Done [] wd
  | e :: rest =>
      andThen (ev e wd) (fun v wd1 =>
      andThen (eval_all rest wd1) (fun vs wd2 => Done (v :: vs) wd2))
  end.

Fixpoint eval_fields (fs : list (string * Expr)) (wd : World)
  : Result (list (string * Val)) :=
  match fs with
  | [] => Done [] wd
  | (k, e) :: rest =>
      andThen (ev e wd) (fun v wd1 =>
      andThen (eval_fields rest wd1) (fun vs wd2 => Done ((k, v) :: vs) wd2))
  end.

End Lists.

(** The callback of [map] applied to each item with its index, from left to
    right. *)
Fixpoint map_values (call : Val -> Z -> World -> Result Val)
         (items : list Val) (i : Z) (wd : World) : Result (list Val) :=
  match items with
  | [] => Done [] wd
  | item :: rest =>
      andThen (call item i wd) (fun v wd1 =>
      andThen (map_values call rest (i + 1) wd1) (fun vs wd2 =>
      Done (v :: vs) wd2))
  end.

(** Evaluation of expressions, execution of statement lists and calls. The
    fuel bounds the depth of the run, not its length. *)
Fixpoint eval (fuel : nat) (env : Env) (e : Expr) (wd : World) {struct fuel}
  : Result Val :=
  match fuel with
  | O => OutOfFuel
  | S fuel' =>
      match e with
      | Num n => Done (VNum n) wd
      | Str s => Done (VStr s) wd
      | Var x =>
          match assoc x env with
          | Some v => Done v wd
          | None => Thrown (error "ReferenceError" (x ++ " is not defined")) wd
          end
      | Obj fields =>
          andThen (eval_fields (eval fuel' env) fields wd) (fun vs wd1 =>
          Done (VObject vs) wd1)
      | Arr items =>
          andThen (eval_all (eval fuel' env) items wd) (fun vs wd1 =>
          Done (VArray vs) wd1)
      | Member object property =>
          andThen (eval fuel' env object wd) (fun o wd1 =>
          get_property o property wd1)
      | Call (Member object property) args =>
          andThen (eval fuel' env object wd) (fun o wd1 =>
          andThen (get_property o property wd1) (fun f wd2 =>
          andThen (eval_all (eval fuel' env) args wd2) (fun vs wd3 =>
          apply fuel' f o vs wd3)))
      | Call callee args =>
          andThen (eval fuel' env callee wd) (fun f wd1 =>
          andThen (eval_all (eval fuel' env) args wd1) (fun vs wd2 =>
          apply fuel' f VUndefined vs wd2))
      | Arrow params body => Done (VClosure params body env) wd
      | Jsx tag attrs children =>
          andThen (eval fuel' env tag wd) (fun t wd1 =>
          andThen (eval_fields (eval fuel' env) attrs wd1) (fun ps wd2 =>
          andThen (eval_all (eval fuel' env) children wd2) (fun cs wd3 =>
          create_element t ps cs wd3)))
      | Cond test consequent alternate =>
          andThen (eval fuel' env test wd) (fun t wd1 =>
          if truthy t then eval fuel' env consequent wd1
          else eval fuel' env alternate wd1)
      end
  end
with exec (fuel : nat) (env : Env) (ss : list Stmt) (wd : World) {struct fuel}
  : Result Outcome :=
  match fuel with
  | O => OutOfFuel
  | S fuel' =>
      match ss with
      | [] => Done Finished wd
      | Const x e :: rest =>
          andThen (eval fuel' env e wd) (fun v wd1 =>
          exec fuel' ((x, v) :: env) rest wd1)
      | Do e :: rest =>
          andThen (eval fuel' env e wd) (fun _ wd1 => exec fuel' env rest wd1)
      | Return e :: _ =>
          andThen (eval fuel' env e wd) (fun v wd1 => Done (Returned v) wd1)
      | If test consequent alternate :: rest =>
          andThen (eval fuel' env test wd) (fun t wd1 =>
          andThen (exec fuel' env (if truthy t then consequent else alternate)
                        wd1) (fun o wd2 =>
          match o with
          | Returned v => Done (Returned v) wd2
          | Finished => exec fuel' env rest wd2
          end))
      | Try block x handler :: rest =>
          let continue o wd2 :=
            match o with
            | Returned v => Done (Returned v) wd2
            | Finished => exec fuel' env rest wd2
            end in
          match exec fuel' env block wd with
          | Done o wd1 => continue o wd1
          | Thrown v wd1 =>
              andThen (exec fuel' ((x, v) :: env) handler wd1) continue
          | OutOfFuel => OutOfFuel
          end
      | ThrowStmt e :: _ =>
          andThen (eval fuel' env e wd) (fun v wd1 => Thrown v wd1)
      | While test body :: rest =>
          andThen (eval fuel' env test wd) (fun t wd1 =>
          if truthy t
          then andThen (exec fuel' env body wd1) (fun o wd2 =>
               match o with
               | Returned v => Done (Returned v) wd2
               | Finished => exec fuel' env (While test body :: rest) wd2
               end)
          else exec fuel' env rest wd1)
      end
  end
with apply (fuel : nat) (f this : Val) (args : list Val) (wd : World)
           {struct fuel} : Result Val :=
  match fuel with
  | O => OutOfFuel
  | S fuel' =>
      match f with
      | VClosure params body env =>
          andThen (exec fuel' (bind_params params args ++ env)%list body wd)
                  (fun o wd1 =>
          match o with
          | Returned v => Done v wd1
          | Finished => Done VUndefined wd1
          end)
      | VBuiltin ConsoleLog =>
          Done VUndefined (mkWorld (slot wd) (log wd ++ [args])%list)
      | VBuiltin ArrayMap =>
          match this, args with
          | VArray items, callback :: _ =>
              if callable callback
              then andThen
                     (map_values (fun item i wd1 =>
                                    apply fuel' callback VUndefined
                                          [item; VNum i; this] wd1)
                                 items 0 wd) (fun vs wd1 =>
                   Done (VArray vs) wd1)
              else Thrown (error "TypeError" "callback is not a function") wd
          | VArray _, [] =>
              Thrown (error "TypeError" "undefined is not a function") wd
          | _, _ =>
              Thrown (error "TypeError" "map called on a value that is not an array") wd
          end
      | VBuiltin UseMemo =>
          match args with
          | factory :: rest =>
              let next := match rest with
                          | VArray ds :: _ => Some ds
                          | _ => None
                          end in
              let create wd0 :=
                andThen (apply fuel' factory VUndefined [] wd0) (fun v wd1 =>
                Done v (mkWorld (Some (v, next)) (log wd1))) in
              match slot wd, next with
              | Some (v, Some prev), Some ds =>
                  if deps_equal ds prev then Done v wd else create wd
              | _, _ => create wd
              end
          | [] => Thrown (error "TypeError" "undefined is not a function") wd
          end
      | _ => Thrown (error "TypeError" "value is not a function") wd
      end
  end.

(** What the names of the module are bound to where the component is
    defined: the imports, the styled wrapper and the global [console]. *)
Definition module_env : Env :=
  [ ("useMemo", VBuiltin UseMemo);
    ("GridLayout", VType Dashboard.GridLayout);
    ("StyledDashboardGrid", VType Dashboard.StyledDashboardGrid);
    ("console", VObject [ ("log", VBuiltin ConsoleLog) ]) ].

(** A call of a function of the module, as React calls a component: with
    its props. *)
Definition call (fuel : nat) (f : Function) (args : list Val) (wd : World)
  : Result Val :=
  apply fuel (VClosure (params f) (body f) module_env) VUndefined args wd.

(** A render of the component, which is given no props. *)
Definition render (fuel : nat) (wd : World) : Result Val :=
  call fuel Source.DashboardGrid [ VObject [] ] wd.

(** *** From the typed model to values *)







(** The depth a render of the component needs. *)
Definition depth : nat := 11.

End Eval.

(** * Properties *)

Section ReadingStrings.
Import Util Artifacts.

Example split_volume :
  split ":" "${PROJECT_DIR}/config.yaml:/app/config.yaml:ro" =
  ["${PROJECT_DIR}/config.yaml"; "/app/config.yaml"; "ro"].
Proof. reflexivity. Qed.

Example decimal_port : decimal "6333" = Some 6333 /\ decimal "${PORT}" = None.
Proof. split; reflexivity. Qed.

Example ports_of_location : ports_in "http://localhost:6333" = [6333].
Proof. reflexivity. Qed.

Example ports_of_mapping :
  ports_in "6334:6334" = [6334; 6334]
  /\ ports_in "${IBIS_SERVER_PORT}:8000" = [8000]
  /\ ports_in "127.0.0.1" = [].
Proof. repeat split. Qed.

Example host_of_endpoint :
  url_host "http://wren-engine:${WREN_ENGINE_PORT}" = Some "wren-engine"
  /\ url_host "https://api.openai.com/v1" = Some "api.openai.com"
  /\ url_host "qdrant" = None.
Proof. repeat split. Qed.

Example basename_of_fixture : basename Config.path = "config.test.yaml".
Proof. reflexivity. Qed.

End ReadingStrings.

Section DashboardGridFacts.
Import Js React Dashboard Rendered.

Lemma grids_eq (l : list Descriptor) :
  grids l =
  Normal (map (fun item =>
                 Element (Host "div") (Some (id item))
                   [("data-grid", PLayout (layout item))] [render item]) l).
Proof.
  unfold grids.
  induction l as [| d l IH]; simpl; [reflexivity |].
  rewrite IH. reflexivity.
Qed.

Lemma grids_cells (l : list Descriptor) :
  exists gs, grids l = Normal gs /\ Forall2 is_cell_of l gs.
Proof.
  rewrite grids_eq. eexists; split; [reflexivity |].
  induction l as [| d l IH]; simpl; constructor; auto.
  repeat split.
Qed.

(** A render of the component, step by step, from any world. *)
Lemma DashboardGrid_eq (wd : World) :
  exists gl gs tree wd',
    current wd = Normal gl
    /\ grids gl = Normal gs
    /\ DashboardGrid wd = Normal (tree, wd')
    /\ memo wd' = slot_after wd gl
    /\ console wd' = (console wd ++ [LogDescriptors gl; LogNodes gs])%list
    /\ grid_cells tree = gs.
Proof.
  destruct wd as [m c].
  unfold DashboardGrid, bind, useMemo, console_log, lift, ret, current,
    slot_after.
  simpl.
  destruct m as [[v prev] |]; simpl;
    rewrite ?grids_eq; do 4 eexists;
    (split; [reflexivity |]); (split; [apply grids_eq |]);
    (split; [reflexivity |]); (split; [reflexivity |]);
    (split; [simpl; rewrite <- app_assoc; reflexivity |]);
    unfold grid_cells, flat_children; simpl;
    first [reflexivity | apply app_nil_r].
Qed.

(** The tree a render returns depends on the world through the list it
    works on only. *)
Lemma DashboardGrid_value (wd1 wd2 : World) :
  current wd1 = current wd2 ->
  value (DashboardGrid wd1) = value (DashboardGrid wd2).
Proof.
  assert (Hu : forall wd gl, current wd = Normal gl ->
            value (DashboardGrid wd) =
            value (DashboardGrid (mkWorld (Some (gl, [])) []))).
  { intros [m c] gl Hc.
    unfold DashboardGrid, bind, useMemo, console_log, lift, ret.
    unfold current in Hc. simpl in *.
    destruct m as [[v prev] |]; simpl in *;
      inversion Hc; subst; rewrite !grids_eq; reflexivity. }
  intros H.
  destruct (DashboardGrid_eq wd1) as (gl1 & _ & _ & _ & C1 & _).
  destruct (DashboardGrid_eq wd2) as (gl2 & _ & _ & _ & C2 & _).
  assert (Hgl : gl1 = gl2) by congruence. subst gl2.
  rewrite (Hu wd1 gl1 C1), (Hu wd2 gl1 C2). reflexivity.
Qed.

(** After any number of renders the component is mounted on a world whose
    list is the literal one. *)
Lemma rendered_current (n : nat) :
  exists wd, rendered n = Some wd /\ current wd = gridLayouts tt.
Proof.
  induction n as [| n (wd & Hr & Hc)].
  - exists mount. split; reflexivity.
  - destruct (DashboardGrid_eq wd) as (gl & gs & t & wd' & C & _ & R & M & _).
    exists wd'. simpl. rewrite Hr, R. split; [reflexivity |].
    unfold current. rewrite M. unfold slot_after.
    unfold current in Hc, C.
    destruct (memo wd) as [[v prev] |]; simpl in *; congruence.
Qed.

(** So each render returns the tree of the first. *)
Lemma rendered_value (n : nat) :
  exists wd, rendered n = Some wd
             /\ value (DashboardGrid wd) = value (DashboardGrid mount).
Proof.
  destruct (rendered_current n) as (wd & Hr & Hc).
  exists wd. split; [exact Hr |].
  apply DashboardGrid_value. exact Hc.
Qed.

(** After the first render the hook slot holds the literal list. *)
Lemma rendered_memo (n : nat) :
  exists gl wd,
    gridLayouts tt = Normal gl
    /\ rendered (S n) = Some wd
    /\ memo wd = Some (gl, []).
Proof.
  induction n as [| n (gl & wd & Hg & Hr & Hm)].
  - do 2 eexists. repeat split.
  - destruct (DashboardGrid_eq wd) as (gl' & gs & t & wd' & _ & _ & R & M & _).
    exists gl, wd'. split; [exact Hg |].
    change (rendered (S (S n))) with
      (match rendered (S n) with
       | None => None
       | Some wd0 => match DashboardGrid wd0 with
                     | Throw _ => None
                     | Normal (_, wd1) => Some wd1
                     end
       end).
    rewrite Hr, R. split; [reflexivity |].
    rewrite M. unfold slot_after. rewrite Hm. reflexivity.
Qed.

(** [columns_overlap] decides whether some column lies in both ranges. *)
Lemma columns_overlap_false (a b : Layout) :
  columns_overlap a b = false ->
  forall c, ~ ((x a <= c < x a + w a) /\ (x b <= c < x b + w b)).
Proof.
  unfold columns_overlap. intros H c [Ha Hb].
  apply andb_false_iff in H. destruct H as [H | H];
    apply Z.ltb_ge in H; lia.
Qed.

(** The keys of the cells are the ids of the descriptors, so distinct ids
    give distinct keys, whatever the list. *)
Lemma grids_keys (l : list Descriptor) :
  exists gs, grids l = Normal gs
             /\ map node_key gs = map (fun d => Some (id d)) l.
Proof.
  rewrite grids_eq. eexists. split; [reflexivity |].
  rewrite map_map. reflexivity.
Qed.

Ltac nodup_strings :=
  repeat constructor; simpl; intuition discriminate.

(** C1. For every descriptor of the fixed [gridLayouts] array, the [grids]
    mapping yields exactly one child whose key is the descriptor's id, whose
    [data-grid] is its layout and whose content is its render element; the
    children, which are the ones the returned tree hands to [GridLayout],
    come in the order and number of [gridLayouts]. The mapping pairs cells
    with descriptors in this way for any array. *)
Theorem grids_one_cell_per_descriptor :
  (exists gl gs tree wd',
      gridLayouts tt = Normal gl
      /\ grids gl = Normal gs
      /\ DashboardGrid mount = Normal (tree, wd')
      /\ grid_cells tree = gs
      /\ Forall2 is_cell_of gl gs
      /\ List.length gs = List.length gl
      /\ Forall (fun d => count_key (id d) gs = 1%nat) gl)
  /\ (forall l, exists gs, grids l = Normal gs /\ Forall2 is_cell_of l gs).
Proof.
  split; [| exact grids_cells].
  do 4 eexists.
  split; [reflexivity |].
  split; [reflexivity |].
  split; [reflexivity |].
  split; [reflexivity |].
  split; [repeat constructor |].
  split; [reflexivity |].
  repeat constructor.
Qed.

(** C2. [gridLayouts] is a literal list of exactly two descriptors, with ids
    [a] and [b]; a render leaves a memoised list as it is, with its
    dependency array, and after any number of renders the hook slot holds the
    literal list, each descriptor with its id and layout. *)
Theorem gridLayouts_two_descriptors_unchanged :
  (exists d1 d2,
      gridLayouts tt = Normal [d1; d2]
      /\ id d1 = "a" /\ layout d1 = mkLayout 0 0 6 6
      /\ id d2 = "b" /\ layout d2 = mkLayout 6 0 6 6)
  /\ (forall gl deps c, exists tree wd',
         DashboardGrid (mkWorld (Some (gl, deps)) c) = Normal (tree, wd')
         /\ memo wd' = Some (gl, deps))
  /\ (forall n, exists gl wd,
         gridLayouts tt = Normal gl
         /\ rendered (S n) = Some wd
         /\ memo wd = Some (gl, [])).
Proof.
  split; [| split].
  - do 2 eexists. repeat split.
  - intros gl deps c.
    destruct (DashboardGrid_eq (mkWorld (Some (gl, deps)) c))
      as (gl' & gs & t & wd' & _ & _ & R & M & _).
    exists t, wd'. split; [exact R | exact M].
  - exact rendered_memo.
Qed.

(** [Dashboard.DashboardGrid] completes normally in whatever world it runs;
    every render of the mounted component, the first and each later one,
    returns a well-formed element tree. *)
Lemma DashboardGrid_completes :
  (forall wd, is_normal (DashboardGrid wd) = true)
  /\ (forall n, exists wd tree,
         rendered n = Some wd
         /\ value (DashboardGrid wd) = Normal tree
         /\ well_formed tree = true).
Proof.
  split.
  - intros wd.
    destruct (DashboardGrid_eq wd) as (gl & gs & t & wd' & _ & _ & R & _).
    rewrite R. reflexivity.
  - intros n. destruct (rendered_value n) as (wd & Hr & Hv).
    exists wd. eexists. split; [exact Hr |].
    rewrite Hv. split; reflexivity.
Qed.

(** C8. The two cells a render hands to [GridLayout] (whose [cols] is 12) lie
    in row 0 with height 6; cell [a] occupies columns [0, 6) and cell [b]
    columns [6, 12); the ranges share no column and every cell ends at or
    before the last column of the grid. *)
Theorem grid_cells_disjoint_in_bounds :
  forall n, exists wd tree la lb cols,
    rendered n = Some wd
    /\ value (DashboardGrid wd) = Normal tree
    /\ grid_cols tree = Some cols /\ cols = 12
    /\ cell_layouts tree = [("a", la); ("b", lb)]
    /\ List.length (grid_cells tree) = 2%nat
    /\ y la = 0 /\ h la = 6 /\ y lb = 0 /\ h lb = 6
    /\ columns la = (0, 6) /\ columns lb = (6, 12)
    /\ columns_overlap la lb = false
    /\ Forall (fun kl => 0 <= x (snd kl) /\ x (snd kl) + w (snd kl) <= cols)
              (cell_layouts tree).
Proof.
  intros n. destruct (rendered_value n) as (wd & Hr & Hv).
  exists wd. do 4 eexists. split; [exact Hr |].
  rewrite Hv. split; [reflexivity |].
  split; [reflexivity |].
  repeat (split; [reflexivity |]).
  repeat constructor; simpl; lia.
Qed.

(** C9. The ids of the descriptors of [gridLayouts] are [a] and [b],
    pairwise distinct, and the key of each cell of [grids] is the id of its
    descriptor, so no two cells share a key. *)
Theorem grid_keys_unique :
  exists gl gs,
    gridLayouts tt = Normal gl
    /\ grids gl = Normal gs
    /\ map id gl = ["a"; "b"]
    /\ NoDup (map id gl)
    /\ map node_key gs = map (fun d => Some (id d)) gl
    /\ forallb keyed gs = true
    /\ NoDup (keys_of gs).
Proof.
  do 2 eexists.
  split; [reflexivity |].
  split; [reflexivity |].
  split; [reflexivity |].
  split; [nodup_strings |].
  split; [reflexivity |].
  split; [reflexivity |].
  nodup_strings.
Qed.

End DashboardGridFacts.

Section FixtureFacts.
Import Yaml Config.

Lemma fixture_pipes_count : List.length pipes = 13%nat.
Proof. reflexivity. Qed.

(** C3. The fixture declares one llm ([openai_llm.gpt-4o-mini]), one embedder
    ([openai_embedder.text-embedding-3-large]), the document store [qdrant]
    and the engine [wren_ui]; every pipe of the pipeline section has only the
    fields [name], [llm], [embedder], [document_store] and [engine], and each
    of the four resource fields it has is the declared one. *)
Theorem pipes_reference_declared_resources :
  declared_llms = ["openai_llm.gpt-4o-mini"]
  /\ declared_embedders = ["openai_embedder.text-embedding-3-large"]
  /\ declared_document_stores = ["qdrant"]
  /\ declared_engines = ["wren_ui"]
  /\ Forall (fun p =>
       pipe_keys_known p = true
       /\ field_is "llm" "openai_llm.gpt-4o-mini" p
       /\ field_is "embedder" "openai_embedder.text-embedding-3-large" p
       /\ field_is "document_store" "qdrant" p
       /\ field_is "engine" "wren_ui" p
       /\ field_in "llm" declared_llms p
       /\ field_in "embedder" declared_embedders p
       /\ field_in "document_store" declared_document_stores p
       /\ field_in "engine" declared_engines p) pipes.
Proof.
  repeat (split; [reflexivity |]).
  repeat constructor; now left.
Qed.

(** C5. The fixture has exactly six documents; their section kinds are, in
    order, llm, embedder, engine, document_store, pipeline and settings, the
    first five read from the [type] field and the last from the [settings]
    key. *)
Theorem fixture_has_six_sections :
  List.length documents = 6%nat
  /\ map section_kind documents =
     [ Some "llm"; Some "embedder"; Some "engine"; Some "document_store";
       Some "pipeline"; Some "settings" ]
  /\ map (get "type") (firstn 5 documents) =
     [ Some (YStr "llm"); Some (YStr "embedder"); Some (YStr "engine");
       Some (YStr "document_store"); Some (YStr "pipeline") ]
  /\ map (fun d => (get "type" d, keys d)) (skipn 5 documents) =
     [ (None, ["settings"]) ].
Proof. repeat split. Qed.

(** C10. The only dimension an embedder section gives a model and the only
    [embedding_model_dim] of a document-store section are both 3072. *)
Theorem embedding_dimension_consistent :
  embedder_dimensions = [3072]
  /\ document_store_dimensions = [3072]
  /\ embedder_dimensions = document_store_dimensions.
Proof. repeat split. Qed.

End FixtureFacts.

Section ComposeFacts.
Import Yaml Compose.

(** C6. The manifest declares exactly the five services bootstrap,
    wren-engine, wren-ai-service, ibis-server and qdrant; each has an [image]
    field and none has a [build] field. *)
Theorem compose_five_prebuilt_services :
  service_names =
    [ "bootstrap"; "wren-engine"; "wren-ai-service"; "ibis-server"; "qdrant" ]
  /\ List.length services = 5%nat
  /\ Forall (fun s => has_key "image" (snd s) = true
                      /\ has_key "build" (snd s) = false
                      /\ prebuilt (snd s) = true) services.
Proof.
  repeat (split; [reflexivity |]).
  repeat constructor.
Qed.

End ComposeFacts.

Section ArtifactFacts.
Import Yaml Artifacts.

(** C4, as stated, fails: the fixture's document-store location writes port
    6333, which the Compose service [qdrant] publishes, and its provider
    [qdrant] is the name of that service. *)
Lemma artifacts_share_bindings :
  In (AStr "http://localhost:6333") fixture_atoms
  /\ In (Port 6333) compose_declares
  /\ refers (AStr "http://localhost:6333") (Port 6333) = true
  /\ In (AStr "qdrant") fixture_atoms
  /\ In (Service "qdrant") compose_declares
  /\ refers (AStr "qdrant") (Service "qdrant") = true
  /\ all_independent = false.
Proof.
  repeat split; vm_compute; tauto.
Qed.

(** C4, amended. The component is independent of the fixture and of the
    manifest, in both directions. The fixture and the manifest are bound to
    each other through the document store only: the name [qdrant] and the
    port 6333. No literal of the manifest writes the fixture's file: the
    [config.yaml] it mounts is another name. *)
Theorem component_independent_fixture_bound_to_compose :
  independent_of component_atoms fixture_declares = true
  /\ independent_of component_atoms compose_declares = true
  /\ independent_of fixture_atoms component_declares = true
  /\ independent_of compose_atoms component_declares = true
  /\ nodup_bindings (bindings fixture_atoms compose_declares) =
     [ (AStr "qdrant", Service "qdrant");
       (AStr "http://localhost:6333", Port 6333) ]
  /\ nodup_bindings (bindings compose_atoms fixture_declares) =
     [ (AStr "qdrant", Service "qdrant");
       (AStr "6333:6333", Port 6333) ]
  /\ independent_of compose_atoms [File Config.path] = true.
Proof. repeat split. Qed.

End ArtifactFacts.

(** * Further properties of the component *)

Section RenderFacts.
Import Js React Dashboard Rendered Geometry.

Lemma cells_keyed (l : list Descriptor) :
  forallb keyed (map cell_node l) = true.
Proof. induction l as [| d l IH]; simpl; auto. Qed.

Lemma cells_keys (l : list Descriptor) :
  keys_of (map cell_node l) = map id l.
Proof. induction l as [| d l IH]; simpl; [| rewrite IH]; reflexivity. Qed.

Lemma cells_well_formed (l : list Descriptor) :
  forallb well_formed (map cell_node l) =
  forallb (fun d => well_formed (render d)) l.
Proof.
  induction l as [| d l IH]; [reflexivity |].
  cbn [map forallb]. rewrite IH. unfold cell_node at 1.
  cbn. rewrite andb_true_r. reflexivity.
Qed.

(** The world a render leaves works on the list the render worked on. *)
Lemma current_after (wd : World) (gl : list Descriptor) :
  current wd = Normal gl ->
  forall wd', memo wd' = slot_after wd gl -> current wd' = Normal gl.
Proof.
  unfold current, slot_after. intros C wd' M. rewrite M.
  destruct (memo wd) as [[v prev] |]; simpl in *; congruence.
Qed.

Lemma rendered_console (n : nat) :
  exists wd, rendered n = Some wd /\ List.length (console wd) = (2 * n)%nat.
Proof.
  induction n as [| n (wd & Hr & Hl)].
  - exists mount. split; reflexivity.
  - destruct (DashboardGrid_eq wd) as (gl & gs & t & wd' & _ & _ & R & _ & L & _).
    exists wd'. simpl rendered. rewrite Hr, R. split; [reflexivity |].
    rewrite L, length_app, Hl. simpl. lia.
Qed.

(** X1. A render is repeatable: from any world it completes, and the
    render that follows it returns the same tree and leaves the hook slot as
    the first one left it. *)
Theorem rerender_same_tree :
  forall wd, exists tree wd1 wd2,
    DashboardGrid wd = Normal (tree, wd1)
    /\ DashboardGrid wd1 = Normal (tree, wd2)
    /\ memo wd2 = memo wd1.
Proof.
  intros wd.
  destruct (DashboardGrid_eq wd) as (gl & gs & t & wd1 & C & _ & R & M & _).
  destruct (DashboardGrid_eq wd1) as (gl1 & gs1 & t1 & wd2 & C1 & _ & R1 & M1 & _).
  pose proof (current_after wd gl C wd1 M) as C1'.
  assert (Hv : value (DashboardGrid wd1) = value (DashboardGrid wd)).
  { apply DashboardGrid_value. congruence. }
  rewrite R, R1 in Hv. simpl in Hv. inversion Hv; subst t1.
  exists t, wd1, wd2. repeat split; try assumption.
  rewrite M1. unfold slot_after. rewrite M. unfold slot_after.
  destruct (memo wd); reflexivity.
Qed.

(** X2. Each render appends exactly two entries to the console, the list it
    works on and then the cells made from it, and keeps what was logged
    before; after [n] renders of the mounted component the console holds
    [2 n] entries. *)
Theorem render_logs_two_entries :
  (forall wd, exists gl gs tree wd',
      current wd = Normal gl
      /\ grids gl = Normal gs
      /\ DashboardGrid wd = Normal (tree, wd')
      /\ console wd' = (console wd ++ [LogDescriptors gl; LogNodes gs])%list)
  /\ (forall n, exists wd,
         rendered n = Some wd /\ List.length (console wd) = (2 * n)%nat).
Proof.
  split; [| exact rendered_console].
  intros wd.
  destruct (DashboardGrid_eq wd) as (gl & gs & t & wd' & C & G & R & _ & L & _).
  exists gl, gs, t, wd'. auto.
Qed.

(** X3. When the hook slot holds a list, whatever dependency array is stored
    with it, the cells handed to [GridLayout] are made from that list, one
    per descriptor and in its order, and not from the literal of the
    factory. *)
Theorem memoised_list_is_rendered :
  forall gl deps c, exists tree wd',
    DashboardGrid (mkWorld (Some (gl, deps)) c) = Normal (tree, wd')
    /\ Forall2 is_cell_of gl (grid_cells tree)
    /\ map node_key (grid_cells tree) = map (fun d => Some (id d)) gl.
Proof.
  intros gl deps c.
  destruct (DashboardGrid_eq (mkWorld (Some (gl, deps)) c))
    as (gl' & gs & t & wd' & C & G & R & _ & _ & Hc).
  unfold current in C. simpl in C. inversion C; subst gl'.
  exists t, wd'. split; [exact R |].
  rewrite Hc.
  destruct (grids_cells gl) as (gs' & G' & F).
  destruct (grids_keys gl) as (gs'' & G'' & K).
  split; congruence.
Qed.

(** X4. The tree a render returns is well formed exactly when the
    descriptors it works on have pairwise distinct ids and well-formed render
    elements. *)
Theorem rendered_tree_well_formed_iff :
  forall wd, exists gl tree wd',
    current wd = Normal gl
    /\ DashboardGrid wd = Normal (tree, wd')
    /\ well_formed tree =
       Util.distinct (map id gl)
       && forallb (fun d => well_formed (render d)) gl.
Proof.
  intros [m c].
  assert (Hwf : forall gl ty1 ty2,
    well_formed
      (Element ty1 None [("className", PStr "mt-12")]
         [ Element ty2 None
             [ ("className", PStr "layout"); ("cols", PNum 12);
               ("margin", PNums [16; 16]); ("rowHeight", PNum 30);
               ("width", PNum 768) ]
             [ Items (map cell_node gl) ] ]) =
    Util.distinct (map id gl)
    && forallb (fun d => well_formed (render d)) gl).
  { intros gl ty1 ty2.
    cbn -[cell_node]. rewrite cells_keyed, cells_keys, cells_well_formed.
    rewrite !andb_true_r. reflexivity. }
  assert (Hg : forall l, array_map cell l = Normal (map cell_node l))
    by exact grids_eq.
  unfold DashboardGrid, bind, useMemo, console_log, lift, ret, current, grids.
  destruct m as [[v prev] |]; do 3 eexists;
    (split; [reflexivity |]);
    (split; [simpl; rewrite ?Hg; reflexivity |]);
    first [apply Hwf | reflexivity].
Qed.

(** X5. In the tree of every render of the mounted component the cells lie
    in one band of rows, and each column of the grid, from 0 to [cols - 1],
    is covered by exactly one cell. *)
Theorem grid_columns_tiled :
  forall n c, 0 <= c < 12 ->
    exists wd tree,
      rendered n = Some wd
      /\ value (DashboardGrid wd) = Normal tree
      /\ grid_cols tree = Some 12
      /\ rows (cell_layouts tree) = [(0, 6); (0, 6)]
      /\ List.length (covering c (cell_layouts tree)) = 1%nat.
Proof.
  intros n c Hc. destruct (rendered_value n) as (wd & Hr & Hv).
  exists wd. eexists. split; [exact Hr |].
  rewrite Hv. split; [reflexivity |].
  split; [reflexivity |].
  split; [reflexivity |].
  unfold covering, covers. cbn.
  destruct (Z.leb_spec 0 c); [| lia].
  destruct (Z.ltb_spec c 6); destruct (Z.leb_spec 6 c);
    destruct (Z.ltb_spec c 12); try lia; reflexivity.
Qed.

Lemma grid_columns_tiled_witness :
  exists wd tree,
    rendered 2 = Some wd
    /\ value (DashboardGrid wd) = Normal tree
    /\ grid_cols tree = Some 12
    /\ rows (cell_layouts tree) = [(0, 6); (0, 6)]
    /\ List.length (covering 7 (cell_layouts tree)) = 1%nat.
Proof. apply (grid_columns_tiled 2 7). lia. Defined.

End RenderFacts.

(** * Further properties of the fixture *)

Section PipelineFacts.
Import Yaml Config Pipeline.

Ltac distinct_values :=
  repeat constructor; simpl; intuition discriminate.

(** X6. Every pipe has a name, no two pipes share one, and looking a pipe up
    by its name finds that pipe. *)
Theorem pipe_names_identify_pipes :
  NoDup (map pipe_name pipes)
  /\ Forall (fun p => exists s, pipe_name p = Some s /\ find_pipe s = Some p)
            pipes.
Proof.
  split; [distinct_values |].
  repeat constructor; eexists; split; reflexivity.
Qed.

(** X7. A pipe names an embedder exactly when it names a document store, a
    pipe that names an engine names an llm, and every pipe names an llm or
    an embedder. *)
Theorem pipe_fields_go_together :
  Forall (fun p =>
    has_key "embedder" p = has_key "document_store" p
    /\ implb (has_key "engine" p) (has_key "llm" p) = true
    /\ has_key "llm" p || has_key "embedder" p = true) pipes.
Proof. repeat constructor. Qed.

(** X8. Every resource the fixture declares is used: each declared llm,
    embedder, document store and engine is named by some pipe. *)
Theorem declared_resources_are_used :
  Forall (fun r => In r (used "llm")) declared_llms
  /\ Forall (fun r => In r (used "embedder")) declared_embedders
  /\ Forall (fun r => In r (used "document_store")) declared_document_stores
  /\ Forall (fun r => In r (used "engine")) declared_engines
  /\ map (@List.length string)
         [ declared_llms; declared_embedders; declared_document_stores;
           declared_engines ] = [1; 1; 1; 1]%nat.
Proof.
  repeat split; repeat constructor; simpl; tauto.
Qed.

(** X9. The ports on this machine that the fixture names (of the engine
    endpoint, of the document store and of the service itself) are valid
    port numbers and pairwise distinct. *)
Theorem local_ports_distinct :
  local_ports = [3000; 6333; 5556]
  /\ NoDup local_ports
  /\ Forall (fun p => 0 < p < 65536) local_ports.
Proof.
  split; [reflexivity |].
  split.
  - repeat constructor; simpl; intuition discriminate.
  - repeat constructor.
Qed.

(** X10. Every URL of the fixture has a host, and every URL that is not on
    [localhost] is an [https] one. *)
Theorem remote_endpoints_use_https :
  List.length urls = 6%nat
  /\ Forall (fun u =>
       (exists host, Artifacts.url_host u = Some host
                     /\ String.eqb host "" = false)
       /\ (if is_local u then url_scheme u = Some "http"
           else url_scheme u = Some "https")) urls.
Proof.
  split; [reflexivity |].
  repeat constructor; eexists; split; reflexivity.
Qed.

End PipelineFacts.

(** * Further properties of the manifest *)

Section WiringFacts.
Import Yaml Compose Wiring.

(** X11. Every entry of a [depends_on] names a declared service, and no
    service depends on itself. *)
Theorem depends_on_declared_services :
  Forall (fun s =>
    Forall (fun d => In d service_names /\ String.eqb d (fst s) = false)
           (depends_on (snd s))) services
  /\ flat_map (fun s => map (pair (fst s)) (depends_on (snd s))) services =
     [ ("wren-engine", "bootstrap"); ("wren-ai-service", "qdrant") ].
Proof.
  split; [| reflexivity].
  repeat constructor; simpl; tauto.
Qed.

(** X12. The services can be started in an order that respects
    [depends_on], so the dependencies have no cycle; the order in which the
    manifest lists the services is not such an order. *)
Theorem start_order_exists :
  (exists order,
      List.length order = List.length service_names
      /\ NoDup order
      /\ Forall (fun s => In s order) service_names
      /\ starts_in_order order = true)
  /\ starts_in_order service_names = false.
Proof.
  split; [| reflexivity].
  exists ["bootstrap"; "wren-engine"; "qdrant"; "wren-ai-service"; "ibis-server"].
  split; [reflexivity |].
  split; [repeat constructor; simpl; intuition discriminate |].
  split; [repeat constructor; simpl; tauto | reflexivity].
Qed.

(** X13. Every network a service lists is declared by the manifest.
    bootstrap lists none and so joins the implicit [default] network alone,
    which the manifest does not declare; the four other services join
    [wren]. The one service whose environment addresses another service by
    name (ibis-server addresses wren-engine) is on a network with it. *)
Theorem networks_declared_and_shared :
  Forall (fun s =>
    Forall (fun n => In n declared_networks) (listed_networks (snd s))
    /\ reaches_named_services (snd s) = true) services
  /\ map (fun s => (fst s, networks_of (snd s))) services =
     [ ("bootstrap", ["default"]); ("wren-engine", ["wren"]);
       ("wren-ai-service", ["wren"]); ("ibis-server", ["wren"]);
       ("qdrant", ["wren"]) ]
  /\ declared_networks = ["wren"]
  /\ flat_map (fun s => map (pair (fst s))
                            (filter (fun host => existsb (String.eqb host)
                                                   service_names)
                                    (env_hosts (snd s)))) services =
     [ ("ibis-server", "wren-engine") ].
Proof.
  split; [| repeat split].
  repeat constructor; simpl; tauto.
Qed.

(** X14. Every mount of a path is read-only and lies under the project
    directory; every other mount is read-write and mounts a volume the
    manifest declares. Every entry of [volumes] is such a mount. *)
Theorem mounts_declared_or_read_only :
  Forall (fun s =>
    List.length (mounts (snd s)) = List.length (strings_at "volumes" (snd s))
    /\ Forall (fun m =>
         if is_bind m
         then prefix "${PROJECT_DIR}/" (source m) = true /\ mode m = "ro"
         else In (source m) declared_volumes /\ mode m = "rw")
         (mounts (snd s))) services.
Proof. repeat constructor; simpl; tauto. Qed.

(** X15. Every absolute path the environment of a service gives (the data
    path of bootstrap, the config path of wren-ai-service) is the target of a
    mount of that service. *)
Theorem env_paths_are_mounted :
  Forall (fun s =>
    Forall (fun p => In p (map target (mounts (snd s)))) (env_paths (snd s)))
    services
  /\ flat_map (fun s => map (pair (fst s)) (env_paths (snd s))) services =
     [ ("bootstrap", "/app/data"); ("wren-ai-service", "/app/config.yaml") ].
Proof.
  split; [| reflexivity].
  repeat constructor; simpl; tauto.
Qed.

(** X16. The only services that mount a common volume are bootstrap and
    wren-engine, and one of them depends on the other. *)
Theorem volume_sharers_are_ordered :
  volume_sharers = [ ("bootstrap", "wren-engine"); ("wren-engine", "bootstrap") ]
  /\ volume_sharers_ordered = true.
Proof. split; reflexivity. Qed.

(** X17. Every entry of [ports] has a host side and a container side; no
    host side is written twice in the manifest; every literal port a
    service exposes is the container side of one of its mappings. *)
Theorem port_mappings_well_formed :
  Forall (fun s =>
    List.length (port_mappings (snd s)) =
    List.length (strings_at "ports" (snd s))
    /\ exposed_are_published (snd s) = true) services
  /\ NoDup (flat_map (fun s => map fst (port_mappings (snd s))) services).
Proof.
  split; [repeat constructor |].
  repeat constructor; simpl; intuition discriminate.
Qed.

(** X18. Every service pulls its image always and names it with a tag; no
    two services run the same image. *)
Theorem images_tagged_and_pulled :
  Forall (fun s =>
    (exists tag, image_tag (snd s) = Some tag /\ String.eqb tag "" = false)
    /\ get "pull_policy" (snd s) = Some (YStr "always")) services
  /\ NoDup (map (fun s => get "image" (snd s)) services).
Proof.
  split.
  - repeat constructor; eexists; split; reflexivity.
  - repeat constructor; simpl; intuition discriminate.
Qed.

End WiringFacts.

(** * The text of the component and its runs *)

Section SourceFacts.
Import Js React Dashboard Rendered Geometry Source Eval.

(** A component that guards its list with a conditional, catches what its
    body throws, throws itself and tries again is told apart by the four
    tests. *)
Example guarded_component_is_told_apart :
  let f :=
    mkFunction "Guarded" []
      [ Try [ If (Var "ready")
                [ Return (Cond (Var "list") (Var "list") (Arr [])) ]
                [ ThrowStmt (Str "not ready") ] ]
            "e"
            [ While (Var "again") [ Do (Call (Var "Guarded") []) ] ] ] in
  branches f = true /\ catches f = true /\ throws f = true
  /\ retries f = true.
Proof. repeat split. Qed.

(** Runs do throw: a [map] on a slot that holds no array, a read of an
    item that is [undefined], a name that is not bound, a [throw]. *)
Example runs_can_throw :
  render 30 (Eval.mkWorld (Some (VUndefined, Some [])) []) =
    Thrown (error "TypeError" "Cannot read properties of undefined")
           (Eval.mkWorld (Some (VUndefined, Some [])) [[VUndefined]])
  /\ render 30 (Eval.mkWorld (Some (VArray [VUndefined], Some [])) []) =
     Thrown (error "TypeError" "Cannot read properties of undefined")
            (Eval.mkWorld (Some (VArray [VUndefined], Some []))
                          [[VArray [VUndefined]]])
  /\ call 30 (mkFunction "f" [] [ Return (Var "missing") ]) []
          (Eval.mkWorld None []) =
     Thrown (error "ReferenceError" "missing is not defined")
            (Eval.mkWorld None [])
  /\ call 30 (mkFunction "f" [] [ ThrowStmt (Str "no") ]) []
          (Eval.mkWorld None []) =
     Thrown (VStr "no") (Eval.mkWorld None [])
  /\ call 30 (mkFunction "f" []
                [ Try [ ThrowStmt (Str "no") ] "e" [ Return (Var "e") ] ]) []
          (Eval.mkWorld None []) =
     Done (VStr "no") (Eval.mkWorld None []).
Proof. repeat split. Qed.

(** With less fuel than [depth] a render is cut off. *)
Example render_needs_depth :
  render (depth - 1) (Eval.mkWorld None []) = OutOfFuel.
Proof. reflexivity. Qed.




End SourceFacts.
